(** * Virtual-memory exercises: address translation and address decomposition

    A shallow embedding of the two C programs of the repository,
    [Pag_Virtual.c] (32-bit virtual address, one 8-entry page table) and
    [Memoria_Virtual_PAG.c] (three-level decomposition and average access
    time), followed by the properties stated about them.

    C integers are modelled as [Z] with every conversion written out,
    [double] as IEEE-754 binary64 ([PrimFloat.float]), and standard output as
    the list of [printf] calls a function performs. *)

From Stdlib Require Import ZArith List String Ascii Lia Bool.
From Stdlib Require Import PrimFloat SpecFloat FloatOps Uint63.
Import ListNotations.
Local Open Scope Z_scope.
Set Warnings "-inexact-float".


(** ** The C fragment the programs rely on *)

Module C.

(** Conversion to [unsigned int] / [uint32_t]: reduction modulo 2^32. *)
Definition to_uint32 (z : Z) : Z := z mod 2 ^ 32.

(** Conversion to [size_t] / [uint64_t]: reduction modulo 2^64. *)
Definition to_uint64 (z : Z) : Z := z mod 2 ^ 64.

(** Conversion to [int]: the two's complement representative. *)
Definition to_int (z : Z) : Z := (z + 2 ^ 31) mod 2 ^ 32 - 2 ^ 31.

(** Conversion of a non-negative integer below 2^63 to [double]. *)
Definition to_double (z : Z) : float := PrimFloat.of_uint63 (Uint63.of_Z z).

(** One argument of a [printf] call, tagged with its C type. *)
Inductive printf_arg : Type :=
| ArgInt (z : Z)
| ArgUnsigned (z : Z)
| ArgUInt64 (z : Z)
| ArgDouble (d : float).

(** One [printf] call: the format string and the arguments after it. *)
Record printf_call : Type := Printf {
  format : string;
  arguments : list printf_arg
}.

(** A computation that writes to standard output: its value together with
    the calls it made, oldest first. *)
Definition IO (A : Type) : Type := (A * list printf_call)%type.

Definition ret {A : Type} (a : A) : IO A := (a, []).

Definition bind {A B : Type} (c : IO A) (k : A -> IO B) : IO B :=
  let (a, out1) := c in
  let (b, out2) := k a in
  (b, out1 ++ out2).

Definition printf (fmt : string) (args : list printf_arg) : IO unit :=
  (tt, [Printf fmt args]).

Definition value {A : Type} (c : IO A) : A := fst c.
Definition stdout {A : Type} (c : IO A) : list printf_call := snd c.

(** The line feed that ends the messages. *)
Definition LF : string := String (ascii_of_nat 10) EmptyString.

(** What [scanf("%x", &var)] leaves in an [unsigned int] variable: the
    converted number when the input matches, the variable's previous
    (indeterminate) content when it does not. *)
Definition scanf_x (scanned : option Z) (indeterminate : Z) : Z :=
  match scanned with
  | Some v => to_uint32 v
  | None => to_uint32 indeterminate
  end.

End C.

Declare Scope io_scope.
Delimit Scope io_scope with io.
Notation "x <- c ;; k" := (C.bind c (fun x => k))
  (at level 61, c at next level, right associativity) : io_scope.
Notation "c ;; k" := (C.bind c (fun _ => k))
  (at level 61, right associativity) : io_scope.

(** ** Pag_Virtual.c *)

Module Pag_Virtual.
Import C.
Local Open Scope io_scope.

Definition PAGE_SIZE : Z := Z.shiftl 1 12.
Definition VIRTUAL_ADDRESS_BITS : Z := 32.
Definition PHYSICAL_ADDRESS_BITS : Z := 21.

Record PageTableEntry : Type := mkEntry {
  presence_bit : Z;
  modified_bit : Z;
  page_frame : Z
}.

Definition page_table : list PageTableEntry :=
  [ mkEntry 1 1 0;
    mkEntry 0 0 8;
    mkEntry 1 0 9;
    mkEntry 1 1 14;
    mkEntry 1 0 3;
    mkEntry 1 0 7;
    mkEntry 0 1 25;
    mkEntry 0 1 16 ].

(** [sizeof(page_table) / sizeof(PageTableEntry)], a [size_t]. *)
Definition page_table_length : Z := Z.of_nat (List.length page_table).

(** [page_table[i]]; the read is only reached below the bounds check, the
    default entry stands for the read the check excludes. *)
Definition page_table_at (i : Z) : PageTableEntry :=
  nth (Z.to_nat i) page_table (mkEntry 0 0 0).

Definition MSG_OUT_OF_BOUNDS : string :=
  ("Número de página fuera de los límites de la tabla." ++ LF)%string.

Definition MSG_IN_SWAP : string :=
  ("La página está en swap, no en memoria física." ++ LF)%string.

(** [int page_number = (virtual_address >> 12) & 0xFF;] *)
Definition page_number_of (virtual_address : Z) : Z :=
  to_int (Z.land (Z.shiftr virtual_address 12) (to_uint32 0xFF)).

(** [int offset = virtual_address & (PAGE_SIZE - 1);] *)
Definition offset_of (virtual_address : Z) : Z :=
  to_int (Z.land virtual_address (to_uint32 (PAGE_SIZE - 1))).

(** [int get_physical_address(uint32_t virtual_address)]: the argument is
    converted to the parameter's type, the comparison with the table length
    is done in [size_t], the product and the sum in [int]. *)
Definition get_physical_address (virtual_address : Z) : IO Z :=
  let virtual_address := to_uint32 virtual_address in
  let page_number := page_number_of virtual_address in
  let offset := offset_of virtual_address in
  if to_uint64 page_number >=? page_table_length then
    printf MSG_OUT_OF_BOUNDS [] ;;
    ret (-1)
  else
    let entry := page_table_at page_number in
    if presence_bit entry =? 0 then
      printf MSG_IN_SWAP [] ;;
      ret (-1)
    else
      let physical_address :=
        to_int (to_int (page_frame entry * PAGE_SIZE) + offset) in
      ret physical_address.

Definition main (scanned : option Z) (indeterminate : Z) : IO Z :=
  printf ("Formato de la dirección virtual:" ++ LF)%string [] ;;
  printf (" - Número de página: 8 bits (bits 12 a 19 de la dirección)" ++ LF)%string [] ;;
  printf (" - Offset dentro de la página: 12 bits (bits 0 a 11 de la dirección)" ++ LF)%string [] ;;
  printf (LF ++ "Ingrese una dirección virtual (en hexadecimal, hasta 32 bits): ")%string [] ;;
  let virtual_address := scanf_x scanned indeterminate in
  physical_address <- get_physical_address virtual_address ;;
  (if negb (physical_address =? -1) then
     printf ("Dirección física correspondiente: 0x%X" ++ LF)%string [ArgInt physical_address]
   else ret tt) ;;
  let virtual_memory_size := to_uint64 (Z.shiftl (to_uint64 1) VIRTUAL_ADDRESS_BITS) in
  printf ("El tamaño del espacio de direcciones virtuales es: %llu bytes (%.2f GB)" ++ LF)%string
    [ArgUInt64 virtual_memory_size;
     ArgDouble (PrimFloat.div (to_double virtual_memory_size)
                              (to_double (Z.shiftl 1 30)))] ;;
  ret 0.

End Pag_Virtual.

(** ** Memoria_Virtual_PAG.c *)

Module Memoria_Virtual_PAG.
Import C.
Local Open Scope io_scope.

Definition PAGE_SIZE : Z := Z.shiftl 1 12.
Definition ADDRESS_SIZE : Z := 36.
Definition TLB_HIT_TIME : Z := 8.
Definition MEMORY_ACCESS_TIME : Z := 70.
Definition TLB_HIT_RATE : float := 0.9%float.

Record VirtualAddress : Type := mkVirtualAddress {
  offset : Z;
  lvl3_index : Z;
  lvl2_index : Z;
  lvl1_index : Z
}.

(** [VirtualAddress decompose_address(unsigned int virtual_address)]: the
    argument is converted to the parameter's type [unsigned int]; the [int]
    masks are converted to [unsigned int] before the [&]. *)
Definition decompose_address (virtual_address : Z) : VirtualAddress :=
  let virtual_address := to_uint32 virtual_address in
  {| offset :=
       Z.land virtual_address (to_uint32 (to_int (Z.shiftl 1 12) - 1));
     lvl3_index :=
       Z.land (Z.shiftr virtual_address 12) (to_uint32 0xFF);
     lvl2_index :=
       Z.land (Z.shiftr virtual_address 20) (to_uint32 0xFF);
     lvl1_index :=
       Z.land (Z.shiftr virtual_address 28) (to_uint32 0xF) |}.

(** [double calculate_memory_access_time()]: the integer constants are
    converted to [double] where they meet one, [3 * MEMORY_ACCESS_TIME] is
    an [int] product. *)
Definition calculate_memory_access_time : float :=
  let tlb_access_time := (TLB_HIT_RATE * to_double TLB_HIT_TIME)%float in
  let page_table_access_time :=
    ((to_double 1 - TLB_HIT_RATE) * to_double (to_int (3 * MEMORY_ACCESS_TIME)))%float in
  let memory_access_time := to_double MEMORY_ACCESS_TIME in
  (tlb_access_time + page_table_access_time + memory_access_time)%float.

Definition main (scanned : option Z) (indeterminate : Z) : IO Z :=
  printf "Ingrese una dirección virtual (en hexadecimal, hasta 36 bits): " [] ;;
  let virtual_address := scanf_x scanned indeterminate in
  let addr := decompose_address virtual_address in
  printf ("Descomposición de la dirección virtual:" ++ LF)%string [] ;;
  printf (" - Índice de tabla de nivel 1: %u" ++ LF)%string [ArgUnsigned (lvl1_index addr)] ;;
  printf (" - Índice de tabla de nivel 2: %u" ++ LF)%string [ArgUnsigned (lvl2_index addr)] ;;
  printf (" - Índice de tabla de nivel 3: %u" ++ LF)%string [ArgUnsigned (lvl3_index addr)] ;;
  printf (" - Offset dentro de la página: %u" ++ LF)%string [ArgUnsigned (offset addr)] ;;
  let access_time := calculate_memory_access_time in
  printf ("Tiempo promedio de acceso a memoria (sin fallo de página): %.2f ns" ++ LF)%string
    [ArgDouble access_time] ;;
  ret 0.

End Memoria_Virtual_PAG.

(** ** Concrete runs *)

Section Runs.
Import C.

Example translate_resident_page :
  Pag_Virtual.get_physical_address 0x2ABC = (0x9ABC, []).
Proof. reflexivity. Qed.

Example translate_swapped_page :
  Pag_Virtual.get_physical_address 0x6FFF
  = (-1, [Printf Pag_Virtual.MSG_IN_SWAP []]).
Proof. reflexivity. Qed.

Example translate_page_beyond_table :
  Pag_Virtual.get_physical_address 0x8000
  = (-1, [Printf Pag_Virtual.MSG_OUT_OF_BOUNDS []]).
Proof. reflexivity. Qed.

Example translate_converts_argument :
  Pag_Virtual.get_physical_address (2 ^ 32 + 0x5010) = (0x7010, []).
Proof. reflexivity. Qed.

Example pag_virtual_last_line :
  map arguments (skipn 5 (stdout (Pag_Virtual.main (Some 0x2ABC) 0)))
  = [[ArgUInt64 4294967296; ArgDouble 4%float]].
Proof. reflexivity. Qed.

Example pag_virtual_prints_address :
  map arguments (stdout (Pag_Virtual.main (Some 0x2ABC) 0))
  = [[]; []; []; []; [ArgInt 0x9ABC]; [ArgUInt64 4294967296; ArgDouble 4%float]].
Proof. reflexivity. Qed.

Example pag_virtual_prints_no_address_for_swap :
  map arguments (stdout (Pag_Virtual.main (Some 0x1ABC) 0))
  = [[]; []; []; []; []; [ArgUInt64 4294967296; ArgDouble 4%float]].
Proof. reflexivity. Qed.

Example decompose_32_bit_address :
  Memoria_Virtual_PAG.decompose_address 0x12345678
  = Memoria_Virtual_PAG.mkVirtualAddress 0x678 0x45 0x23 0x1.
Proof. reflexivity. Qed.

Example decompose_36_bit_address :
  Memoria_Virtual_PAG.decompose_address 0xF12345678
  = Memoria_Virtual_PAG.mkVirtualAddress 0x678 0x45 0x23 0x1.
Proof. reflexivity. Qed.

Example memoria_virtual_output :
  map arguments (stdout (Memoria_Virtual_PAG.main (Some 0x12345678) 0))
  = [[]; []; [ArgUnsigned 1]; [ArgUnsigned 0x23]; [ArgUnsigned 0x45];
     [ArgUnsigned 0x678]; [ArgDouble 0x1.88cccccccccccp+6%float]].
Proof. reflexivity. Qed.

End Runs.

(** ** Facts about the integer conversions and the masks *)

Section Conversions.
Import C.

Lemma to_uint32_small (z : Z) : 0 <= z < 2 ^ 32 -> to_uint32 z = z.
Proof. intros H. unfold to_uint32. apply Z.mod_small. exact H. Qed.

Lemma to_uint64_small (z : Z) : 0 <= z < 2 ^ 64 -> to_uint64 z = z.
Proof. intros H. unfold to_uint64. apply Z.mod_small. exact H. Qed.

Lemma to_int_small (z : Z) : - 2 ^ 31 <= z < 2 ^ 31 -> to_int z = z.
Proof.
  intros H. unfold to_int.
  rewrite Z.mod_small by lia. lia.
Qed.

Lemma to_uint32_range (z : Z) : 0 <= to_uint32 z < 2 ^ 32.
Proof. unfold to_uint32. apply Z.mod_pos_bound. lia. Qed.

(** A field of [width] bits taken at bit [lo]. *)
Lemma field_range (z lo width : Z) :
  0 <= width -> 0 <= Z.land (Z.shiftr z lo) (Z.ones width) < 2 ^ width.
Proof.
  intros Hw. rewrite Z.land_ones by exact Hw.
  apply Z.mod_pos_bound. apply Z.pow_pos_nonneg; lia.
Qed.

(** The conversion to [uint32_t] keeps every field that ends at or below
    bit 32. *)
Lemma field_to_uint32 (z lo width : Z) :
  0 <= lo -> 0 <= width -> lo + width <= 32 ->
  Z.land (Z.shiftr (to_uint32 z) lo) (Z.ones width)
  = Z.land (Z.shiftr z lo) (Z.ones width).
Proof.
  intros Hlo Hw Hle. unfold to_uint32.
  apply Z.bits_inj'. intros n Hn.
  rewrite !Z.land_spec, !Z.shiftr_spec by exact Hn.
  rewrite Z.testbit_ones_nonneg by lia.
  destruct (Z.ltb_spec n width) as [Hlt | Hge].
  - rewrite Z.mod_pow2_bits_low by lia. reflexivity.
  - rewrite !andb_false_r. reflexivity.
Qed.

(** Masking to the low [k] bits keeps every field that ends at or below
    bit [k]. *)
Lemma field_low_bits (z k lo width : Z) :
  0 <= lo -> 0 <= width -> lo + width <= k ->
  Z.land (Z.shiftr (Z.land z (Z.ones k)) lo) (Z.ones width)
  = Z.land (Z.shiftr z lo) (Z.ones width).
Proof.
  intros Hlo Hw Hle.
  apply Z.bits_inj'. intros n Hn.
  rewrite !Z.land_spec, !Z.shiftr_spec, Z.land_spec by exact Hn.
  rewrite !Z.testbit_ones_nonneg by lia.
  destruct (Z.ltb_spec n width) as [Hlt | Hge].
  - destruct (Z.ltb_spec (n + lo) k); [| lia].
    rewrite andb_true_r. reflexivity.
  - rewrite !andb_false_r. reflexivity.
Qed.

End Conversions.

(** ** Address translation: [Pag_Virtual.get_physical_address] *)

Section Translation.
Import C Pag_Virtual.

Lemma page_number_bounds (v : Z) : 0 <= Z.land (Z.shiftr v 12) 0xFF <= 255.
Proof.
  pose proof (field_range v 12 8 ltac:(lia)) as H.
  change (Z.ones 8) with 255 in H. change (2 ^ 8) with 256 in H. lia.
Qed.

Lemma offset_bounds (v : Z) : 0 <= Z.land v 0xFFF <= 4095.
Proof.
  pose proof (field_range v 0 12 ltac:(lia)) as H.
  rewrite Z.shiftr_0_r in H.
  change (Z.ones 12) with 4095 in H. change (2 ^ 12) with 4096 in H. lia.
Qed.

Lemma page_number_of_spec (v : Z) :
  page_number_of (to_uint32 v) = Z.land (Z.shiftr v 12) 0xFF.
Proof.
  unfold page_number_of.
  change (to_uint32 0xFF) with (Z.ones 8).
  rewrite field_to_uint32 by lia.
  change (Z.ones 8) with 0xFF.
  apply to_int_small.
  pose proof (page_number_bounds v). lia.
Qed.

Lemma offset_of_spec (v : Z) :
  offset_of (to_uint32 v) = Z.land v 0xFFF.
Proof.
  unfold offset_of.
  change (to_uint32 (PAGE_SIZE - 1)) with (Z.ones 12).
  rewrite <- (Z.shiftr_0_r (to_uint32 v)), field_to_uint32 by lia.
  rewrite Z.shiftr_0_r. change (Z.ones 12) with 0xFFF.
  apply to_int_small.
  pose proof (offset_bounds v). lia.
Qed.

(** The function, with the conversions that do nothing removed. *)
Lemma get_physical_address_unfold (v : Z) :
  get_physical_address v =
    let page_number := Z.land (Z.shiftr v 12) 0xFF in
    let offset := Z.land v 0xFFF in
    if page_number >=? 8 then (-1, [Printf MSG_OUT_OF_BOUNDS []])
    else
      let entry := page_table_at page_number in
      if presence_bit entry =? 0 then (-1, [Printf MSG_IN_SWAP []])
      else (to_int (to_int (page_frame entry * 4096) + offset), []).
Proof.
  unfold get_physical_address.
  rewrite page_number_of_spec, offset_of_spec.
  pose proof (page_number_bounds v) as Hpn.
  rewrite to_uint64_small by lia.
  change page_table_length with 8.
  cbv zeta.
  destruct (Z.land (Z.shiftr v 12) 0xFF >=? 8); [reflexivity |].
  destruct (presence_bit (page_table_at (Z.land (Z.shiftr v 12) 0xFF)) =? 0);
    reflexivity.
Qed.

(** Below the bounds check the index is inside the table. *)
Lemma page_table_at_nth_error (i : Z) :
  0 <= i < 8 -> nth_error page_table (Z.to_nat i) = Some (page_table_at i).
Proof.
  intros H. unfold page_table_at.
  apply nth_error_nth'. change (List.length page_table) with 8%nat. lia.
Qed.

Lemma page_table_frames (i : Z) :
  0 <= i < 8 -> 0 <= page_frame (page_table_at i) <= 25.
Proof.
  intros H.
  assert (i = 0 \/ i = 1 \/ i = 2 \/ i = 3 \/ i = 4 \/ i = 5 \/ i = 6 \/ i = 7)
    as Hi by lia.
  repeat (destruct Hi as [-> | Hi]); try subst i; vm_compute; split; discriminate.
Qed.

(** The resident frames are 0, 9, 14, 3 and 7. *)
Lemma page_table_resident_frames (i : Z) :
  0 <= i < 8 -> presence_bit (page_table_at i) <> 0 ->
  0 <= page_frame (page_table_at i) <= 14.
Proof.
  intros H.
  assert (i = 0 \/ i = 1 \/ i = 2 \/ i = 3 \/ i = 4 \/ i = 5 \/ i = 6 \/ i = 7)
    as Hi by lia.
  repeat (destruct Hi as [-> | Hi]); try subst i; vm_compute; intros Hp;
    solve [ split; discriminate | exfalso; apply Hp; reflexivity ].
Qed.

Lemma get_physical_address_out_of_bounds (v : Z) :
  8 <= Z.land (Z.shiftr v 12) 0xFF ->
  get_physical_address v = (-1, [Printf MSG_OUT_OF_BOUNDS []]).
Proof.
  intros H. rewrite get_physical_address_unfold. cbv zeta.
  destruct (Z.geb_spec (Z.land (Z.shiftr v 12) 0xFF) 8); [reflexivity | lia].
Qed.

Lemma get_physical_address_in_swap (v : Z) :
  Z.land (Z.shiftr v 12) 0xFF < 8 ->
  presence_bit (page_table_at (Z.land (Z.shiftr v 12) 0xFF)) = 0 ->
  get_physical_address v = (-1, [Printf MSG_IN_SWAP []]).
Proof.
  intros H Hp. rewrite get_physical_address_unfold. cbv zeta.
  destruct (Z.geb_spec (Z.land (Z.shiftr v 12) 0xFF) 8); [lia |].
  rewrite Hp. reflexivity.
Qed.

Lemma get_physical_address_resident (v : Z) :
  Z.land (Z.shiftr v 12) 0xFF < 8 ->
  presence_bit (page_table_at (Z.land (Z.shiftr v 12) 0xFF)) <> 0 ->
  get_physical_address v =
    (page_frame (page_table_at (Z.land (Z.shiftr v 12) 0xFF)) * 4096
     + Z.land v 0xFFF, []).
Proof.
  intros H Hp. rewrite get_physical_address_unfold. cbv zeta.
  destruct (Z.geb_spec (Z.land (Z.shiftr v 12) 0xFF) 8); [lia |].
  destruct (Z.eqb_spec
              (presence_bit (page_table_at (Z.land (Z.shiftr v 12) 0xFF))) 0);
    [contradiction |].
  pose proof (page_number_bounds v) as Hpn.
  pose proof (offset_bounds v) as Hoff.
  pose proof (page_table_frames (Z.land (Z.shiftr v 12) 0xFF) ltac:(lia)) as Hf.
  rewrite (to_int_small (_ * 4096)) by lia.
  rewrite to_int_small by lia.
  reflexivity.
Qed.

(** Only bits 0 to 19 of the argument are read. *)
Lemma get_physical_address_low_bits (v : Z) :
  get_physical_address v = get_physical_address (Z.land v 0xFFFFF).
Proof.
  rewrite (get_physical_address_unfold v).
  rewrite (get_physical_address_unfold (Z.land v 0xFFFFF)).
  change 0xFFFFF with (Z.ones 20).
  change 0xFF with (Z.ones 8). change 0xFFF with (Z.ones 12).
  rewrite (field_low_bits v 20 12 8) by lia.
  rewrite <- (Z.shiftr_0_r (Z.land v (Z.ones 20))).
  rewrite (field_low_bits v 20 0 12) by lia.
  rewrite Z.shiftr_0_r. reflexivity.
Qed.

End Translation.

Section TranslationClaims.
Import C Pag_Virtual.

(** C1. When the page number [(v >> 12) & 0xFF] of the argument indexes the
    8-entry table (0..7) and the entry there has presence bit 1,
    [get_physical_address] prints nothing and returns
    [entry.page_frame * 4096 + (v & 0xFFF)], which is non-negative; when
    moreover the page number is 0 and the offset is 0x123, the entry is
    [{1, 1, 0}] and the result is 0x123. *)
Theorem get_physical_address_resident_page (v : Z) (entry : PageTableEntry) :
  let page_number := Z.land (Z.shiftr v 12) 0xFF in
  let offset := Z.land v 0xFFF in
  0 <= page_number <= 7 ->
  nth_error page_table (Z.to_nat page_number) = Some entry ->
  presence_bit entry = 1 ->
  get_physical_address v = (page_frame entry * 4096 + offset, [])
  /\ 0 <= page_frame entry * 4096 + offset
  /\ (page_number = 0 -> offset = 0x123 ->
      entry = mkEntry 1 1 0 /\ get_physical_address v = (0x123, [])).
Proof.
  intros page_number offset Hpn Hnth Hp.
  rewrite page_table_at_nth_error in Hnth by (fold page_number; lia).
  injection Hnth as <-. fold page_number in Hp |- *.
  assert (get_physical_address v
          = (page_frame (page_table_at page_number) * 4096 + offset, [])) as Hrun.
  { apply get_physical_address_resident; fold page_number; lia. }
  pose proof (page_table_frames page_number ltac:(lia)) as Hf.
  pose proof (offset_bounds v) as Hoff. fold offset in Hoff.
  split; [exact Hrun | split; [lia |]].
  intros H0 H123. rewrite Hrun, H0, H123. split; reflexivity.
Qed.

Lemma get_physical_address_resident_page_witness :
  get_physical_address 0x123 = (0x123, [])
  /\ get_physical_address 0x3ABC = (14 * 4096 + 0xABC, []).
Proof.
  split.
  - apply (get_physical_address_resident_page 0x123 (mkEntry 1 1 0));
      [vm_compute; split; discriminate | reflexivity | reflexivity
      | reflexivity | reflexivity ].
  - apply (get_physical_address_resident_page 0x3ABC (mkEntry 1 1 14));
      [vm_compute; split; discriminate | reflexivity | reflexivity ].
Defined.

(** C2. When the page number of the argument indexes the table (0..7) and the
    entry there has presence bit 0, [get_physical_address] prints the
    "page is in swap" message and returns the sentinel -1 instead of an
    address; page 1 holds [{0, 0, 8}], so every argument with page number 1
    fails this way whatever its offset bits are. *)
Theorem get_physical_address_page_in_swap (v : Z) (entry : PageTableEntry) :
  let page_number := Z.land (Z.shiftr v 12) 0xFF in
  0 <= page_number <= 7 ->
  nth_error page_table (Z.to_nat page_number) = Some entry ->
  presence_bit entry = 0 ->
  get_physical_address v = (-1, [Printf MSG_IN_SWAP []])
  /\ (forall w : Z,
        Z.land (Z.shiftr w 12) 0xFF = 1 ->
        page_table_at 1 = mkEntry 0 0 8
        /\ get_physical_address w = (-1, [Printf MSG_IN_SWAP []])).
Proof.
  intros page_number Hpn Hnth Hp.
  rewrite page_table_at_nth_error in Hnth by (fold page_number; lia).
  injection Hnth as <-. fold page_number in Hp.
  split.
  - apply get_physical_address_in_swap; fold page_number; [lia | exact Hp].
  - intros w Hw. split; [reflexivity |].
    apply get_physical_address_in_swap; rewrite Hw; [lia | reflexivity].
Qed.

Lemma get_physical_address_page_in_swap_witness :
  get_physical_address 0x1FFF = (-1, [Printf MSG_IN_SWAP []])
  /\ get_physical_address 0xABC01000 = (-1, [Printf MSG_IN_SWAP []]).
Proof.
  assert (0 <= Z.land (Z.shiftr 0x1FFF 12) 0xFF <= 7) as Hpn
    by (vm_compute; split; discriminate).
  pose proof (get_physical_address_page_in_swap 0x1FFF (mkEntry 0 0 8)
                Hpn eq_refl eq_refl) as [Hrun Hall].
  split; [exact Hrun | exact (proj2 (Hall 0xABC01000 eq_refl))].
Defined.

(** C3. When the page number of the argument is at least the table length,
    which is 8, [get_physical_address] prints the "out of bounds" message and
    returns the sentinel -1 instead of an address; page number 8 is the first
    such page. *)
Theorem get_physical_address_page_out_of_range (v : Z) :
  let page_number := Z.land (Z.shiftr v 12) 0xFF in
  page_number >= page_table_length ->
  page_table_length = 8
  /\ get_physical_address v = (-1, [Printf MSG_OUT_OF_BOUNDS []])
  /\ nth_error page_table (Z.to_nat page_number) = None.
Proof.
  intros page_number Hpn. change page_table_length with 8 in Hpn |- *.
  split; [reflexivity | split].
  - apply get_physical_address_out_of_bounds. fold page_number. lia.
  - apply nth_error_None. change (List.length page_table) with 8%nat. lia.
Qed.

Lemma get_physical_address_page_out_of_range_witness :
  get_physical_address 0x8000 = (-1, [Printf MSG_OUT_OF_BOUNDS []])
  /\ get_physical_address 0xFF123 = (-1, [Printf MSG_OUT_OF_BOUNDS []]).
Proof.
  split.
  - apply (get_physical_address_page_out_of_range 0x8000).
    vm_compute. discriminate.
  - apply (get_physical_address_page_out_of_range 0xFF123).
    vm_compute. discriminate.
Defined.

(** C6. The decomposition of a 32-bit virtual address done at the head of
    [get_physical_address]: the page number is [(v >> 12) & 0xFF] and lies in
    0..255, the offset is [v & 0xFFF] and lies in 0..4095. *)
Theorem page_number_and_offset_of_address (v : Z) :
  0 <= v < 2 ^ 32 ->
  page_number_of v = Z.land (Z.shiftr v 12) 0xFF
  /\ 0 <= page_number_of v <= 255
  /\ offset_of v = Z.land v 0xFFF
  /\ 0 <= offset_of v <= 4095.
Proof.
  intros Hv.
  pose proof (page_number_of_spec v) as Hpn.
  pose proof (offset_of_spec v) as Hoff.
  rewrite (to_uint32_small v Hv) in Hpn, Hoff.
  rewrite Hpn, Hoff.
  pose proof (page_number_bounds v). pose proof (offset_bounds v).
  repeat split; lia.
Qed.

Lemma page_number_and_offset_of_address_witness :
  page_number_of 0xDEADBEEF = 0xDB /\ offset_of 0xDEADBEEF = 0xEEF.
Proof.
  destruct (page_number_and_offset_of_address 0xDEADBEEF)
    as (Hpn & _ & Hoff & _); [vm_compute; split; [discriminate | reflexivity] |].
  split; [exact Hpn | exact Hoff].
Defined.

(** C9. [get_physical_address] reads only bits 0 to 19 of its argument: two
    virtual addresses that agree on these bits give the same return value and
    the same output. *)
Theorem get_physical_address_ignores_high_bits (v w : Z) :
  Z.land v 0xFFFFF = Z.land w 0xFFFFF ->
  get_physical_address v = get_physical_address w.
Proof.
  intros Hlow.
  rewrite (get_physical_address_low_bits v), (get_physical_address_low_bits w).
  rewrite Hlow. reflexivity.
Qed.

Lemma get_physical_address_ignores_high_bits_witness :
  get_physical_address 0x00002123 = get_physical_address 0xFFF02123.
Proof.
  apply (get_physical_address_ignores_high_bits 0x00002123 0xFFF02123).
  reflexivity.
Defined.

(** C10. A call succeeds when the page number is inside the table and the
    entry is resident. Every successful call prints nothing and returns an
    address between 0 and 14 * 4096 + 4095, hence below 2^21 and different
    from -1; every other call prints a message and returns -1. *)
Theorem get_physical_address_success_range (v : Z) :
  let page_number := Z.land (Z.shiftr v 12) 0xFF in
  let result := get_physical_address v in
  (page_number < 8 /\ presence_bit (page_table_at page_number) <> 0 ->
     0 <= value result <= 14 * 4096 + 4095
     /\ value result < 2 ^ PHYSICAL_ADDRESS_BITS
     /\ value result <> -1
     /\ stdout result = [])
  /\ (~ (page_number < 8 /\ presence_bit (page_table_at page_number) <> 0) ->
      value result = -1 /\ stdout result <> []).
Proof.
  intros page_number result. subst result.
  pose proof (page_number_bounds v) as Hpn. fold page_number in Hpn.
  split.
  - intros [Hlt Hp].
    rewrite (get_physical_address_resident v Hlt Hp). fold page_number.
    pose proof (page_table_resident_frames page_number ltac:(lia) Hp) as Hf.
    pose proof (offset_bounds v) as Hoff.
    unfold value, stdout, PHYSICAL_ADDRESS_BITS. cbn [fst snd].
    change (2 ^ 21) with 2097152.
    repeat split; lia.
  - intros Hfail.
    destruct (Z.lt_ge_cases page_number 8) as [Hlt | Hge].
    + destruct (Z.eq_dec (presence_bit (page_table_at page_number)) 0) as [Hp | Hp].
      * rewrite (get_physical_address_in_swap v Hlt Hp).
        split; [reflexivity | discriminate].
      * exfalso. apply Hfail. split; assumption.
    + rewrite (get_physical_address_out_of_bounds v Hge).
      split; [reflexivity | discriminate].
Qed.

Lemma get_physical_address_success_range_witness :
  (0 <= value (get_physical_address 0x3FFF) <= 14 * 4096 + 4095
   /\ value (get_physical_address 0x3FFF) < 2 ^ PHYSICAL_ADDRESS_BITS
   /\ value (get_physical_address 0x3FFF) <> -1
   /\ stdout (get_physical_address 0x3FFF) = [])
  /\ (value (get_physical_address 0x6000) = -1
      /\ stdout (get_physical_address 0x6000) <> []).
Proof.
  split.
  - apply (proj1 (get_physical_address_success_range 0x3FFF)).
    vm_compute. split; [reflexivity | discriminate].
  - apply (proj2 (get_physical_address_success_range 0x6000)).
    vm_compute. intros [_ Hp]. apply Hp. reflexivity.
Defined.

End TranslationClaims.


(** ** Address decomposition: [Memoria_Virtual_PAG.decompose_address] *)

Section Decomposition.
Import C Memoria_Virtual_PAG.

(** The function, with the conversions that do nothing removed. *)
Lemma decompose_address_unfold (v : Z) :
  decompose_address v =
    {| offset := Z.land v 0xFFF;
       lvl3_index := Z.land (Z.shiftr v 12) 0xFF;
       lvl2_index := Z.land (Z.shiftr v 20) 0xFF;
       lvl1_index := Z.land (Z.shiftr v 28) 0xF |}.
Proof.
  unfold decompose_address.
  change (to_uint32 (to_int (Z.shiftl 1 12) - 1)) with (Z.ones 12).
  change (to_uint32 0xFF) with (Z.ones 8).
  change (to_uint32 0xF) with (Z.ones 4).
  rewrite <- (Z.shiftr_0_r (to_uint32 v)) at 1.
  rewrite !field_to_uint32 by lia.
  rewrite Z.shiftr_0_r. reflexivity.
Qed.

(** Bit [n] of a field put back at its place. *)
Lemma testbit_field_in_place (z lo width n : Z) :
  0 <= lo -> 0 <= width -> 0 <= n ->
  Z.testbit (Z.shiftl (Z.land (Z.shiftr z lo) (Z.ones width)) lo) n
  = Z.testbit z n && ((lo <=? n) && (n <? lo + width)).
Proof.
  intros Hlo Hw Hn.
  rewrite Z.shiftl_spec by exact Hn.
  destruct (Z.leb_spec lo n) as [Hle | Hlt].
  - rewrite Z.land_spec, Z.shiftr_spec, Z.testbit_ones_nonneg by lia.
    replace (n - lo + lo) with n by lia.
    f_equal. cbn [andb].
    destruct (Z.ltb_spec (n - lo) width), (Z.ltb_spec n (lo + width));
      reflexivity || lia.
  - rewrite Z.testbit_neg_r by lia.
    rewrite andb_false_r. reflexivity.
Qed.

(** The four fields tile bits 0 to 31. *)
Lemma fields_tile_32_bits (n : Z) :
  (n <? 12) || ((12 <=? n) && (n <? 12 + 8)) || ((20 <=? n) && (n <? 20 + 8))
  || ((28 <=? n) && (n <? 28 + 4)) = (n <? 32).
Proof.
  destruct (Z.ltb_spec n 12), (Z.leb_spec 12 n), (Z.ltb_spec n (12 + 8)),
    (Z.leb_spec 20 n), (Z.ltb_spec n (20 + 8)), (Z.leb_spec 28 n),
    (Z.ltb_spec n (28 + 4)), (Z.ltb_spec n 32);
    cbn [andb orb]; reflexivity || lia.
Qed.

Lemma fields_reassemble (v : Z) :
  Z.lor (Z.lor (Z.lor (Z.land v 0xFFF)
                      (Z.shiftl (Z.land (Z.shiftr v 12) 0xFF) 12))
               (Z.shiftl (Z.land (Z.shiftr v 20) 0xFF) 20))
        (Z.shiftl (Z.land (Z.shiftr v 28) 0xF) 28)
  = Z.land v 0xFFFFFFFF.
Proof.
  change 0xFFF with (Z.ones 12). change 0xFF with (Z.ones 8).
  change 0xF with (Z.ones 4). change 0xFFFFFFFF with (Z.ones 32).
  apply Z.bits_inj'. intros n Hn.
  rewrite !Z.lor_spec, !testbit_field_in_place by lia.
  rewrite !Z.land_spec, !Z.testbit_ones_nonneg by lia.
  rewrite <- (fields_tile_32_bits n).
  destruct (Z.testbit v n); reflexivity.
Qed.

End Decomposition.

Section DecompositionClaims.
Import C Memoria_Virtual_PAG.

(** C4. For every argument, [decompose_address] returns the four fields
    [offset = v & 0xFFF], [lvl3_index = (v >> 12) & 0xFF],
    [lvl2_index = (v >> 20) & 0xFF] and [lvl1_index = (v >> 28) & 0xF]; it is
    a total function without an error result. *)
Theorem decompose_address_fields (v : Z) :
  decompose_address v =
    mkVirtualAddress (Z.land v 0xFFF)
                     (Z.land (Z.shiftr v 12) 0xFF)
                     (Z.land (Z.shiftr v 20) 0xFF)
                     (Z.land (Z.shiftr v 28) 0xF).
Proof. exact (decompose_address_unfold v). Qed.

(** C5. For every 36-bit argument the fields lie in their ranges (offset in
    0..4095, level-3 and level-2 indices in 0..255, level-1 index in 0..15)
    and the bitwise OR of the fields shifted back to their places is the
    argument with the bits above bit 31 dropped. *)
Theorem decompose_address_round_trip (v : Z) :
  0 <= v < 2 ^ ADDRESS_SIZE ->
  let addr := decompose_address v in
  0 <= offset addr <= 4095
  /\ 0 <= lvl3_index addr <= 255
  /\ 0 <= lvl2_index addr <= 255
  /\ 0 <= lvl1_index addr <= 15
  /\ Z.lor (Z.lor (Z.lor (offset addr) (Z.shiftl (lvl3_index addr) 12))
                  (Z.shiftl (lvl2_index addr) 20))
           (Z.shiftl (lvl1_index addr) 28)
     = Z.land v 0xFFFFFFFF.
Proof.
  intros _ addr. subst addr.
  rewrite decompose_address_unfold. cbn [offset lvl3_index lvl2_index lvl1_index].
  pose proof (field_range v 0 12 ltac:(lia)) as H0. rewrite Z.shiftr_0_r in H0.
  pose proof (field_range v 12 8 ltac:(lia)) as H3.
  pose proof (field_range v 20 8 ltac:(lia)) as H2.
  pose proof (field_range v 28 4 ltac:(lia)) as H1.
  change (Z.ones 12) with 0xFFF in H0. change (2 ^ 12) with 4096 in H0.
  change (Z.ones 8) with 0xFF in H3, H2. change (2 ^ 8) with 256 in H3, H2.
  change (Z.ones 4) with 0xF in H1. change (2 ^ 4) with 16 in H1.
  repeat (split; [lia |]).
  apply fields_reassemble.
Qed.

Lemma decompose_address_round_trip_witness :
  decompose_address 0xFDEADBEEF = mkVirtualAddress 0xEEF 0xDB 0xEA 0xD
  /\ Z.lor (Z.lor (Z.lor (offset (decompose_address 0xFDEADBEEF))
                         (Z.shiftl (lvl3_index (decompose_address 0xFDEADBEEF)) 12))
                  (Z.shiftl (lvl2_index (decompose_address 0xFDEADBEEF)) 20))
           (Z.shiftl (lvl1_index (decompose_address 0xFDEADBEEF)) 28)
     = 0xDEADBEEF.
Proof.
  split; [reflexivity |].
  assert (0 <= 0xFDEADBEEF < 2 ^ ADDRESS_SIZE) as Hv
    by (vm_compute; split; [discriminate | reflexivity]).
  destruct (decompose_address_round_trip 0xFDEADBEEF Hv) as (_ & _ & _ & _ & Hor).
  exact Hor.
Defined.

End DecompositionClaims.

(** ** Average access time: [Memoria_Virtual_PAG.calculate_memory_access_time] *)

Section AccessTime.
Import C Memoria_Virtual_PAG.
Local Open Scope float_scope.

(** C7, as stated. The value returned is not the [double] 98.2, and it is not
    what [0.9 * 8 + 0.1 * (3 * 70) + 70] gives in [double] arithmetic either:
    the code computes [1 - 0.9], which is not the [double] 0.1. *)
Lemma calculate_memory_access_time_is_not_98_2 :
  calculate_memory_access_time <> 98.2
  /\ calculate_memory_access_time <> 0.9 * 8 + 0.1 * (3 * 70) + 70
  /\ 0.9 * 8 + 0.1 * (3 * 70) + 70 = 98.2.
Proof.
  split; [| split; [| reflexivity]]; intros H;
    apply (f_equal (fun x => PrimFloat.ltb x 98.2)) in H;
    vm_compute in H; discriminate H.
Qed.

(** C7, amended. [calculate_memory_access_time] has no argument and is one
    binary64 constant, the value of
    [(hit_rate * tlb_time) + ((1 - hit_rate) * (levels * memory_time)) + memory_time]
    in [double] arithmetic with TLB time 8, memory time 70, hit rate 0.9 and
    3 levels. That constant is 0x1.88cccccccccccp+6 (98.19999999999999): the
    [double] just below the one nearest to 98.2, less than 2^-46 under 98.2. *)
Theorem calculate_memory_access_time_value :
  calculate_memory_access_time = (0.9 * 8) + ((1 - 0.9) * (3 * 70)) + 70
  /\ calculate_memory_access_time = 0x1.88cccccccccccp+6
  /\ PrimFloat.next_up calculate_memory_access_time = 98.2
  /\ Prim2SF calculate_memory_access_time = S754_finite false 0x188ccccccccccc (-46)
  /\ (0 < 982 * 2 ^ 46 - 10 * 0x188ccccccccccc < 10)%Z.
Proof.
  repeat split; reflexivity.
Qed.

End AccessTime.

(** ** The two [main] functions *)

Section Programs.
Import C.

(** The output of [get_physical_address] is part of the output of [main]. *)
Lemma main_prints_translation_output (scanned : option Z) (indeterminate : Z) :
  exists before after : list printf_call,
    stdout (Pag_Virtual.main scanned indeterminate)
    = before
      ++ stdout (Pag_Virtual.get_physical_address (scanf_x scanned indeterminate))
      ++ after.
Proof.
  unfold Pag_Virtual.main, bind, printf, ret, stdout.
  destruct (Pag_Virtual.get_physical_address (scanf_x scanned indeterminate))
    as [physical_address out].
  destruct (negb (physical_address =? -1)); cbn [snd fst app];
    eexists [_; _; _; _]; eexists; cbn [app]; reflexivity.
Qed.

Lemma pag_virtual_main_value (scanned : option Z) (indeterminate : Z) :
  value (Pag_Virtual.main scanned indeterminate) = 0.
Proof.
  unfold Pag_Virtual.main, bind, printf, ret, value.
  destruct (Pag_Virtual.get_physical_address (scanf_x scanned indeterminate))
    as [physical_address out].
  destruct (negb (physical_address =? -1)); reflexivity.
Qed.

Lemma memoria_virtual_main_value (scanned : option Z) (indeterminate : Z) :
  value (Memoria_Virtual_PAG.main scanned indeterminate) = 0.
Proof. reflexivity. Qed.

(** C8. Whatever [scanf] delivers (a number, or nothing), both programs end
    with exit code 0; in [Pag_Virtual.c] this includes the runs where the page
    number is out of bounds and the runs where the page is in swap, which
    print their message and still end with 0. *)
Theorem main_exit_code_is_zero (scanned : option Z) (indeterminate : Z) :
  let virtual_address := scanf_x scanned indeterminate in
  let page_number := Z.land (Z.shiftr virtual_address 12) 0xFF in
  value (Pag_Virtual.main scanned indeterminate) = 0
  /\ value (Memoria_Virtual_PAG.main scanned indeterminate) = 0
  /\ (page_number >= 8 ->
      In (Printf Pag_Virtual.MSG_OUT_OF_BOUNDS [])
         (stdout (Pag_Virtual.main scanned indeterminate))
      /\ value (Pag_Virtual.main scanned indeterminate) = 0)
  /\ (page_number < 8 ->
      Pag_Virtual.presence_bit (Pag_Virtual.page_table_at page_number) = 0 ->
      In (Printf Pag_Virtual.MSG_IN_SWAP [])
         (stdout (Pag_Virtual.main scanned indeterminate))
      /\ value (Pag_Virtual.main scanned indeterminate) = 0).
Proof.
  intros virtual_address page_number.
  pose proof (pag_virtual_main_value scanned indeterminate) as Hexit.
  destruct (main_prints_translation_output scanned indeterminate)
    as (before & after & Hout).
  fold virtual_address in Hout.
  split; [exact Hexit |].
  split; [apply memoria_virtual_main_value |].
  split.
  - intros Hpn. split; [| exact Hexit].
    rewrite Hout, (get_physical_address_out_of_bounds virtual_address)
      by (fold page_number; lia).
    apply in_or_app. right. apply in_or_app. left. left. reflexivity.
  - intros Hpn Hp. split; [| exact Hexit].
    rewrite Hout, (get_physical_address_in_swap virtual_address Hpn Hp).
    apply in_or_app. right. apply in_or_app. left. left. reflexivity.
Qed.

Lemma main_exit_code_is_zero_witness :
  (In (Printf Pag_Virtual.MSG_OUT_OF_BOUNDS [])
      (stdout (Pag_Virtual.main (Some 0x8000) 0))
   /\ value (Pag_Virtual.main (Some 0x8000) 0) = 0)
  /\ (In (Printf Pag_Virtual.MSG_IN_SWAP [])
         (stdout (Pag_Virtual.main (Some 0x1000) 0))
      /\ value (Pag_Virtual.main (Some 0x1000) 0) = 0)
  /\ value (Pag_Virtual.main None 0xFFFFFFFF) = 0.
Proof.
  split; [| split].
  - apply (proj1 (proj2 (proj2 (main_exit_code_is_zero (Some 0x8000) 0)))).
    vm_compute. discriminate.
  - apply (proj2 (proj2 (proj2 (main_exit_code_is_zero (Some 0x1000) 0)))).
    + reflexivity.
    + reflexivity.
  - apply (proj1 (main_exit_code_is_zero None 0xFFFFFFFF)).
Defined.

End Programs.

(** ** Further properties of the address translation *)

Section TranslationSafety.
Import C Pag_Virtual.

(** Bits 0 to 19 are the offset and the page number side by side. *)
Lemma low_bits_split (v : Z) :
  Z.land v 0xFFFFF = Z.land v 0xFFF + 4096 * Z.land (Z.shiftr v 12) 0xFF.
Proof.
  change 0xFFFFF with (Z.ones 20). change 0xFFF with (Z.ones 12).
  change 0xFF with (Z.ones 8).
  rewrite !Z.land_ones, Z.shiftr_div_pow2 by lia.
  change (2 ^ 20) with 1048576. change (2 ^ 12) with 4096.
  change (2 ^ 8) with 256.
  Z.div_mod_to_equations. lia.
Qed.

(** No two resident pages share a frame. *)
Lemma resident_frames_distinct (i j : Z) :
  0 <= i < 8 -> 0 <= j < 8 ->
  presence_bit (page_table_at i) <> 0 ->
  presence_bit (page_table_at j) <> 0 ->
  page_frame (page_table_at i) = page_frame (page_table_at j) ->
  i = j.
Proof.
  intros Hi Hj.
  assert (i = 0 \/ i = 1 \/ i = 2 \/ i = 3 \/ i = 4 \/ i = 5 \/ i = 6 \/ i = 7)
    as Ci by lia.
  assert (j = 0 \/ j = 1 \/ j = 2 \/ j = 3 \/ j = 4 \/ j = 5 \/ j = 6 \/ j = 7)
    as Cj by lia.
  clear Hi Hj.
  repeat (destruct Ci as [-> | Ci]); try subst i;
    repeat (destruct Cj as [-> | Cj]); try subst j;
    vm_compute; intros Hpi Hpj Hf;
    solve [ reflexivity | discriminate Hf
          | exfalso; apply Hpi; reflexivity
          | exfalso; apply Hpj; reflexivity ].
Qed.

(** The three ways a call can end. *)
Lemma get_physical_address_outcome (v : Z) :
  get_physical_address v = (-1, [Printf MSG_OUT_OF_BOUNDS []])
  \/ get_physical_address v = (-1, [Printf MSG_IN_SWAP []])
  \/ exists r : Z, 0 <= r <= 14 * 4096 + 4095 /\ get_physical_address v = (r, []).
Proof.
  pose proof (page_number_bounds v) as Hpn.
  destruct (Z.lt_ge_cases (Z.land (Z.shiftr v 12) 0xFF) 8) as [Hlt | Hge].
  - destruct (Z.eq_dec
                (presence_bit (page_table_at (Z.land (Z.shiftr v 12) 0xFF))) 0)
      as [Hp | Hp].
    + right. left. apply get_physical_address_in_swap; assumption.
    + right. right. eexists. split;
        [| apply get_physical_address_resident; assumption].
      pose proof (page_table_resident_frames
                    (Z.land (Z.shiftr v 12) 0xFF) ltac:(lia) Hp).
      pose proof (offset_bounds v). lia.
  - left. apply get_physical_address_out_of_bounds. exact Hge.
Qed.

Lemma messages_differ : MSG_OUT_OF_BOUNDS <> MSG_IN_SWAP.
Proof. intros H. vm_compute in H. discriminate H. Qed.





End TranslationSafety.

Section TranslationStructure.
Import C Pag_Virtual.

(** X3. A successful translation keeps the offset and replaces the page
    number by the frame: the low 12 bits of the result are the low 12 bits of
    the argument and the remaining bits are the entry's frame number. *)
Theorem physical_address_frame_and_offset (v : Z) :
  let page_number := Z.land (Z.shiftr v 12) 0xFF in
  let result := value (get_physical_address v) in
  page_number < 8 ->
  presence_bit (page_table_at page_number) <> 0 ->
  Z.land result 0xFFF = Z.land v 0xFFF
  /\ Z.shiftr result 12 = page_frame (page_table_at page_number).
Proof.
  intros page_number result Hlt Hp. subst result.
  rewrite (get_physical_address_resident v Hlt Hp). fold page_number.
  unfold value. cbn [fst].
  pose proof (offset_bounds v) as Hoff.
  generalize dependent (Z.land v 0xFFF). intros off Hoff.
  change 0xFFF with (Z.ones 12).
  rewrite Z.land_ones, Z.shiftr_div_pow2 by lia.
  change (2 ^ 12) with 4096.
  split; Z.div_mod_to_equations; lia.
Qed.

Lemma physical_address_frame_and_offset_witness :
  Z.land (value (get_physical_address 0xABC05DEF)) 0xFFF = 0xDEF
  /\ Z.shiftr (value (get_physical_address 0xABC05DEF)) 12 = 7.
Proof.
  apply (physical_address_frame_and_offset 0xABC05DEF).
  - reflexivity.
  - vm_compute. discriminate.
Defined.

(** X4. The translation is injective on the 20 bits it reads: two arguments
    that both translate successfully to the same physical address have the
    same page number and offset, because no two resident pages share a
    frame. *)
Theorem translation_injective (v w : Z) :
  let page_number_v := Z.land (Z.shiftr v 12) 0xFF in
  let page_number_w := Z.land (Z.shiftr w 12) 0xFF in
  page_number_v < 8 -> presence_bit (page_table_at page_number_v) <> 0 ->
  page_number_w < 8 -> presence_bit (page_table_at page_number_w) <> 0 ->
  value (get_physical_address v) = value (get_physical_address w) ->
  Z.land v 0xFFFFF = Z.land w 0xFFFFF.
Proof.
  intros pv pw Hv Hpv Hw Hpw Heq.
  rewrite (get_physical_address_resident v Hv Hpv) in Heq.
  rewrite (get_physical_address_resident w Hw Hpw) in Heq.
  unfold value in Heq. cbn [fst] in Heq. fold pv pw in Heq.
  pose proof (page_number_bounds v) as Bv. fold pv in Bv.
  pose proof (page_number_bounds w) as Bw. fold pw in Bw.
  pose proof (offset_bounds v) as Ov. pose proof (offset_bounds w) as Ow.
  assert (page_frame (page_table_at pv) = page_frame (page_table_at pw)) as Hf
    by lia.
  assert (pv = pw) as Hpage
    by (apply resident_frames_distinct; solve [lia | assumption]).
  rewrite (low_bits_split v), (low_bits_split w).
  fold pv pw. rewrite Hf in Heq. lia.
Qed.

Lemma translation_injective_witness :
  Z.land 0xFFF04321 0xFFFFF = Z.land 0x00004321 0xFFFFF.
Proof.
  apply (translation_injective 0xFFF04321 0x00004321).
  - reflexivity.
  - vm_compute. discriminate.
  - reflexivity.
  - vm_compute. discriminate.
  - reflexivity.
Defined.

(** X5. The outcome is decided by the page number alone: pages 0, 2, 3, 4
    and 5 translate (the result is not -1), pages 1, 6 and 7 give the
    "in swap" message, and pages 8 to 255 give the "out of bounds"
    message. *)
Theorem translation_outcome_by_page (v : Z) :
  let page_number := Z.land (Z.shiftr v 12) 0xFF in
  let result := get_physical_address v in
  (page_number = 0 \/ page_number = 2 \/ page_number = 3
   \/ page_number = 4 \/ page_number = 5 <-> value result <> -1)
  /\ (page_number = 1 \/ page_number = 6 \/ page_number = 7
      <-> stdout result = [Printf MSG_IN_SWAP []])
  /\ (8 <= page_number <-> stdout result = [Printf MSG_OUT_OF_BOUNDS []]).
Proof.
  intros page_number result. subst result.
  pose proof (page_number_bounds v) as Hpn. fold page_number in Hpn.
  pose proof (offset_bounds v) as Hoff.
  pose proof messages_differ as Hmsg.
  assert (page_number = 0 \/ page_number = 1 \/ page_number = 2
          \/ page_number = 3 \/ page_number = 4 \/ page_number = 5
          \/ page_number = 6 \/ page_number = 7 \/ 8 <= page_number) as Hcase
    by lia.
  assert (forall k : Z, page_number = k -> k < 8 ->
            presence_bit (page_table_at k) = 0 ->
            get_physical_address v = (-1, [Printf MSG_IN_SWAP []])) as Hswap.
  { intros k Hk Hlt Hp. apply get_physical_address_in_swap;
      fold page_number; rewrite Hk; assumption. }
  assert (forall k : Z, page_number = k -> k < 8 ->
            presence_bit (page_table_at k) <> 0 ->
            get_physical_address v
            = (page_frame (page_table_at k) * 4096 + Z.land v 0xFFF, []))
    as Hres.
  { intros k Hk Hlt Hp. rewrite <- Hk.
    apply get_physical_address_resident; fold page_number; rewrite Hk;
      assumption. }
  destruct Hcase as [H | [H | [H | [H | [H | [H | [H | [H | H]]]]]]]].
  1, 3, 4, 5, 6:
    rewrite (Hres _ H ltac:(lia) ltac:(vm_compute; discriminate));
    unfold value, stdout; cbn [fst snd page_frame page_table_at];
    (split; [split; [intros _; vm_compute page_table_at;
                     cbn [page_frame]; lia
                    | intros _; lia ]
            | split; (split; [intros Hk; exfalso; lia
                             | intros Hk; discriminate Hk ]) ]).
  1, 2, 3:
    rewrite (Hswap _ H ltac:(lia) eq_refl);
    unfold value, stdout; cbn [fst snd];
    (split; [split; [intros Hk; exfalso; lia
                    | intros Hk; exfalso; apply Hk; reflexivity ]
            | split; [split; [intros _; reflexivity | intros _; lia ]
                     | split; [intros Hk; exfalso; lia
                              | intros Hk; exfalso; apply Hmsg;
                                congruence ] ] ]).
  rewrite (get_physical_address_out_of_bounds v H).
  unfold value, stdout; cbn [fst snd].
  split; [split; [intros Hk; exfalso; lia
                 | intros Hk; exfalso; apply Hk; reflexivity ]
         | split; [split; [intros Hk; exfalso; lia
                          | intros Hk; exfalso; apply Hmsg;
                            congruence ]
                  | split; [intros _; reflexivity | intros _; exact H ] ] ].
Qed.

End TranslationStructure.

(** ** Further properties of the decomposition and of the programs *)

Section DecompositionStructure.
Import C Memoria_Virtual_PAG.

(** The fields, weighted by their positions, add up to the low 32 bits. *)
Lemma fields_sum (v : Z) :
  Z.land (Z.shiftr v 28) 0xF * 2 ^ 28 + Z.land (Z.shiftr v 20) 0xFF * 2 ^ 20
  + Z.land (Z.shiftr v 12) 0xFF * 2 ^ 12 + Z.land v 0xFFF
  = v mod 2 ^ 32.
Proof.
  change 0xFFF with (Z.ones 12). change 0xFF with (Z.ones 8).
  change 0xF with (Z.ones 4).
  rewrite !Z.land_ones, !Z.shiftr_div_pow2 by lia.
  change (2 ^ 32) with 4294967296. change (2 ^ 28) with 268435456.
  change (2 ^ 20) with 1048576. change (2 ^ 12) with 4096.
  change (2 ^ 8) with 256. change (2 ^ 4) with 16.
  Z.div_mod_to_equations. lia.
Qed.

(** X6. Two arguments are decomposed into the same four fields exactly when
    they agree modulo 2^32: the decomposition loses nothing of a 32-bit
    address, and it cannot tell apart addresses that differ only above
    bit 31. *)
Theorem decompose_address_eq_iff (v w : Z) :
  decompose_address v = decompose_address w <-> v mod 2 ^ 32 = w mod 2 ^ 32.
Proof.
  split.
  - intros Heq.
    rewrite (decompose_address_unfold v), (decompose_address_unfold w) in Heq.
    pose proof (f_equal offset Heq) as Hoff.
    pose proof (f_equal lvl3_index Heq) as H3.
    pose proof (f_equal lvl2_index Heq) as H2.
    pose proof (f_equal lvl1_index Heq) as H1.
    cbn [offset lvl3_index lvl2_index lvl1_index] in Hoff, H3, H2, H1.
    rewrite <- (fields_sum v), <- (fields_sum w).
    rewrite Hoff, H3, H2, H1. reflexivity.
  - intros Hmod.
    assert (to_uint32 v = to_uint32 w) as Hconv by exact Hmod.
    unfold decompose_address. cbv zeta. rewrite Hconv. reflexivity.
Qed.

End DecompositionStructure.

Section ProgramOutput.
Import C.

(** X7. [Pag_Virtual.c] always makes six [printf] calls. The first four take
    no argument; the fifth is the address line, carrying a result between 0
    and 14 * 4096 + 4095, when the translation did not return -1, and
    otherwise the one message [get_physical_address] printed, so -1 is never
    printed as an address; the sixth reports 2^32 bytes and 4.00 GB whatever
    was read. *)
Theorem pag_virtual_main_output (scanned : option Z) (indeterminate : Z) :
  let result :=
    Pag_Virtual.get_physical_address (scanf_x scanned indeterminate) in
  let out := stdout (Pag_Virtual.main scanned indeterminate) in
  List.length out = 6%nat
  /\ map arguments (firstn 4 out) = [[]; []; []; []]
  /\ skipn 4 out
     = (if value result =? -1 then stdout result
        else [Printf ("Dirección física correspondiente: 0x%X" ++ LF)%string
                     [ArgInt (value result)]])
       ++ [Printf ("El tamaño del espacio de direcciones virtuales es: %llu bytes (%.2f GB)" ++ LF)%string
                  [ArgUInt64 (2 ^ 32); ArgDouble 4%float]]
  /\ (if value result =? -1
      then stdout result = [Printf Pag_Virtual.MSG_OUT_OF_BOUNDS []]
           \/ stdout result = [Printf Pag_Virtual.MSG_IN_SWAP []]
      else 0 <= value result <= 14 * 4096 + 4095).
Proof.
  intros result out. subst out result.
  unfold Pag_Virtual.main, bind, printf, ret.
  destruct (get_physical_address_outcome (scanf_x scanned indeterminate))
    as [Hrun | [Hrun | (r & Hr & Hrun)]]; rewrite Hrun.
  - unfold value, stdout. cbn [fst snd negb Z.eqb app].
    repeat split. left. reflexivity.
  - unfold value, stdout. cbn [fst snd negb Z.eqb app].
    repeat split. right. reflexivity.
  - unfold value, stdout. cbn [fst snd].
    destruct (Z.eqb_spec r (-1)) as [Heq | Hne]; [lia |].
    cbn [negb fst snd app]. repeat split; lia.
Qed.

(** X8. [Memoria_Virtual_PAG.c] always makes seven [printf] calls: two
    without argument, then the level-1, level-2 and level-3 indices and the
    offset, each within its field width, then the access time. The four
    numbers printed, weighted by their positions, add up to the 32-bit value
    read, and the time printed is the same for every input. *)
Theorem memoria_virtual_main_output (scanned : option Z) (indeterminate : Z) :
  exists lvl1 lvl2 lvl3 off : Z,
    map arguments (stdout (Memoria_Virtual_PAG.main scanned indeterminate))
    = [[]; []; [ArgUnsigned lvl1]; [ArgUnsigned lvl2]; [ArgUnsigned lvl3];
       [ArgUnsigned off]; [ArgDouble 0x1.88cccccccccccp+6%float]]
    /\ 0 <= lvl1 <= 15 /\ 0 <= lvl2 <= 255 /\ 0 <= lvl3 <= 255
    /\ 0 <= off <= 4095
    /\ lvl1 * 2 ^ 28 + lvl2 * 2 ^ 20 + lvl3 * 2 ^ 12 + off
       = scanf_x scanned indeterminate.
Proof.
  unfold Memoria_Virtual_PAG.main, bind, printf, ret, stdout.
  rewrite decompose_address_unfold.
  cbn [snd app map arguments Memoria_Virtual_PAG.offset
       Memoria_Virtual_PAG.lvl3_index Memoria_Virtual_PAG.lvl2_index
       Memoria_Virtual_PAG.lvl1_index].
  set (va := scanf_x scanned indeterminate).
  exists (Z.land (Z.shiftr va 28) 0xF), (Z.land (Z.shiftr va 20) 0xFF),
    (Z.land (Z.shiftr va 12) 0xFF), (Z.land va 0xFFF).
  pose proof (field_range va 28 4 ltac:(lia)) as H1.
  pose proof (field_range va 20 8 ltac:(lia)) as H2.
  pose proof (field_range va 12 8 ltac:(lia)) as H3.
  pose proof (field_range va 0 12 ltac:(lia)) as H0.
  rewrite Z.shiftr_0_r in H0.
  change (Z.ones 12) with 0xFFF in H0. change (2 ^ 12) with 4096 in H0.
  change (Z.ones 8) with 0xFF in H3, H2. change (2 ^ 8) with 256 in H3, H2.
  change (Z.ones 4) with 0xF in H1. change (2 ^ 4) with 16 in H1.
  split; [reflexivity |].
  repeat (split; [lia |]).
  rewrite fields_sum.
  assert (0 <= va < 2 ^ 32) as Hva.
  { subst va. unfold scanf_x. destruct scanned; apply to_uint32_range. }
  apply Z.mod_small. exact Hva.
Qed.

End ProgramOutput.

Section ProgramInputs.
Import C.

(** X9. What [Pag_Virtual.c] prints and returns depends only on bits 0 to 19
    of the value [scanf] left in the variable: two runs whose values agree on
    these bits produce the same output and exit code. *)
Theorem pag_virtual_main_reads_low_bits
    (scanned scanned' : option Z) (indeterminate indeterminate' : Z) :
  Z.land (scanf_x scanned indeterminate) 0xFFFFF
  = Z.land (scanf_x scanned' indeterminate') 0xFFFFF ->
  Pag_Virtual.main scanned indeterminate
  = Pag_Virtual.main scanned' indeterminate'.
Proof.
  intros Hlow. unfold Pag_Virtual.main.
  rewrite (get_physical_address_low_bits (scanf_x scanned indeterminate)).
  rewrite Hlow.
  rewrite <- (get_physical_address_low_bits (scanf_x scanned' indeterminate')).
  reflexivity.
Qed.

Lemma pag_virtual_main_reads_low_bits_witness :
  Pag_Virtual.main (Some 0xFFF02123) 0 = Pag_Virtual.main None 0x2123.
Proof.
  apply (pag_virtual_main_reads_low_bits (Some 0xFFF02123) None 0 0x2123).
  reflexivity.
Defined.

End ProgramInputs.
